(** * graphviz.rendering: save, render, pipe, unflatten and view

    A shallow embedding of [graphviz/rendering.py].  The methods of the
    mix-in classes [Unflatten], [Pipe], [RenderFile] and [RenderFileView]
    become functions in a state-and-exception monad over a small model of
    the outside world (files on disk, processes started, viewers
    launched).  The modules [backend], [encoding] and [files] that
    [rendering.py] imports are described by the design document only;
    their definitions below are marked as such. *)

From Stdlib Require Import Strings.String Strings.Ascii Lists.List ZArith Bool Strings.Byte.
From stdpp Require Import base option strings gmap list pretty.

Local Open Scope string_scope.

(** ** Exceptions *)

Inductive exn : Type :=
| RequiredArgumentError (msg : string)
| ValueError (msg : string)
| ExecutableNotFound (executable : string)
| CalledProcessError (returncode : Z) (stderr : string)
| LookupError (encoding : string)
| UnicodeEncodeError
| UnicodeDecodeError
| FileNotFoundError (path : string)
| RuntimeError (msg : string).

Inductive result (A : Type) : Type :=
| Ok (a : A)
| Raise (e : exn).
Arguments Ok {A} a.
Arguments Raise {A} e.

(** ** The outside world *)

Definition bytes : Type := list byte.

(** The viewer launchers of [backend]; [view_custom] stands for a
    launcher that a subclass binds to a [_view_...] attribute. *)
Inductive viewer : Type :=
| view_darwin
| view_unixoid
| view_windows
| view_custom (name : string).

Inductive event : Type :=
| Spawn (cmd : list string) (cwd : option string) (input : option bytes)
        (quiet : bool)
| Remove (path : string)
| ViewerStarted (v : viewer) (filepath : string) (quiet : bool).

(** Files present on disk, and the external effects so far, latest
    first. *)
Record world : Type := World {
  disk : gset string;
  trace : list event
}.

Definition is_spawn (e : event) : bool :=
  match e with Spawn _ _ _ _ => true | _ => false end.
Definition is_remove (e : event) : bool :=
  match e with Remove _ => true | _ => false end.
Definition is_viewer (e : event) : bool :=
  match e with ViewerStarted _ _ _ => true | _ => false end.

Definition spawns (w : world) : list event := List.filter is_spawn (trace w).
Definition removes (w : world) : list event := List.filter is_remove (trace w).
Definition viewers (w : world) : list event := List.filter is_viewer (trace w).

(** ** State and exception monad

    A raised exception keeps the world as it was when it was raised:
    files written and processes started before it stay so. *)

Definition IO (A : Type) : Type := world -> result A * world.

Definition ret {A} (a : A) : IO A := fun w => (Ok a, w).
Definition raise {A} (e : exn) : IO A := fun w => (Raise e, w).
Definition bind {A B} (m : IO A) (k : A -> IO B) : IO B :=
  fun w => match m w with
           | (Ok a, w') => k a w'
           | (Raise e, w') => (Raise e, w')
           end.
Definition lift {A} (r : result A) : IO A := fun w => (r, w).
Definition emit (e : event) : IO unit :=
  fun w => (Ok tt, World (disk w) (e :: trace w)).

Declare Scope io_scope.
Delimit Scope io_scope with io.
Notation "x <- m ;; k" := (bind m (fun x => k))
  (at level 100, m at next level, right associativity) : io_scope.
Notation "m ;;; k" := (bind m (fun _ => k))
  (at level 100, right associativity) : io_scope.
Local Open Scope io_scope.

Ltac io_unfold := unfold bind, ret, raise, lift, emit in *; simpl in *.

(** ** Python built-ins used by the module *)

Definition is_slash (c : ascii) : bool := bool_decide (c = "/"%char).

Definition starts_with_slash (p : string) : bool :=
  match p with String c _ => is_slash c | EmptyString => false end.

Fixpoint ends_with_slash (p : string) : bool :=
  match p with
  | EmptyString => false
  | String c EmptyString => is_slash c
  | String _ p' => ends_with_slash p'
  end.

(** [os.path.join(a, b)] of [posixpath]. *)
Definition path_join (a b : string) : string :=
  if starts_with_slash b then b
  else if bool_decide (a = "") || ends_with_slash a then a ++ b
  else a ++ "/" ++ b.

Fixpoint span_not_slash (l : list ascii) : list ascii * list ascii :=
  match l with
  | [] => ([], [])
  | c :: l' => if is_slash c then ([], l)
               else let (t, h) := span_not_slash l' in (c :: t, h)
  end.

Fixpoint drop_slashes (l : list ascii) : list ascii :=
  match l with
  | [] => []
  | c :: l' => if is_slash c then drop_slashes l' else l
  end.

(** [os.path.split(p)] of [posixpath]: the part up to the last slash,
    without its trailing slashes unless it consists of slashes only, and
    the part after it. *)
Definition path_split (p : string) : string * string :=
  let (tail_r, head_r) := span_not_slash (rev (list_ascii_of_string p)) in
  let head_r' := match drop_slashes head_r with [] => head_r | l => l end in
  (string_of_list_ascii (rev head_r'), string_of_list_ascii (rev tail_r)).

(** [os.remove]. *)
Definition os_remove (path : string) : IO unit :=
  fun w => if decide (path ∈ disk w)
           then (Ok tt, World (disk w ∖ {[path]}) (Remove path :: trace w))
           else (Raise (FileNotFoundError path), w).

(** A write of the file at [path]. *)
Definition write_file (path : string) : IO unit :=
  fun w => (Ok tt, World ({[path]} ∪ disk w) (trace w)).

(** [repr] of a [str].  Characters are the code points 0..255. *)
Definition hex_digit (n : N) : ascii :=
  ascii_of_N (if (n <? 10)%N then 48 + n else 87 + n).

Definition printable (c : ascii) : bool :=
  let n := N_of_ascii c in
  ((32 <=? n) && (n <? 127) || (161 <=? n) && negb (n =? 173))%N.

Definition backslash : ascii := "092"%char.
Definition squote : ascii := "039"%char.
Definition dquote : ascii := "034"%char.

Definition repr_char (quote : ascii) (c : ascii) : string :=
  if decide (c = backslash) then String backslash (String backslash "")
  else if decide (c = quote) then String backslash (String quote "")
  else if decide (c = "010"%char) then String backslash "n"
  else if decide (c = "013"%char) then String backslash "r"
  else if decide (c = "009"%char) then String backslash "t"
  else if printable c then String c ""
  else String backslash
         (String "x" (String (hex_digit (N_of_ascii c / 16))
                        (String (hex_digit (N_of_ascii c mod 16)) ""))).

Fixpoint has_char (c : ascii) (s : string) : bool :=
  match s with
  | EmptyString => false
  | String d s' => if decide (c = d) then true else has_char c s'
  end.

Fixpoint repr_body (quote : ascii) (s : string) : string :=
  match s with
  | EmptyString => ""
  | String c s' => repr_char quote c ++ repr_body quote s'
  end.

Definition repr (s : string) : string :=
  let quote : ascii :=
    if has_char squote s && negb (has_char dquote s) then dquote else squote in
  String quote (repr_body quote s ++ String quote "").

(** [needle] occurs in [hay]. *)
Definition contains (needle hay : string) : Prop :=
  exists pre post, hay = pre ++ needle ++ post.

(** ** What the module is given from outside

    The platform name, the tables of known names, the codec registry of
    the interpreter and the behaviour of the external executables are
    inputs of the model. *)

Inductive proc_outcome : Type :=
| NotStarted
| Exited (returncode : Z) (stdout : bytes) (stderr : string).

Record Env : Type := {
  PLATFORM : string;
  ENGINES : list string;
  FORMATS : list string;
  RENDERERS : list string;
  FORMATTERS : list string;
  (** [codecs.lookup]: the identity of the registry entry the name
      resolves to, [None] for an unknown name. *)
  codecs_lookup : string -> option N;
  codec_encode : N -> string -> option bytes;
  codec_decode : N -> bytes -> option string;
  (** The external executable: command line, working directory and
      standard input to what it does. *)
  run_process : list string -> option string -> option bytes -> proc_outcome
}.

(** The object the methods are called on: the attributes that
    [rendering.py] reads from [self].  [attrs] holds the attributes whose
    name starts with [_view_] and that are bound to a launcher (an
    attribute bound to [None] counts as absent, as in [_view]). *)
Record Render : Type := {
  source : string;
  filename : string;
  directory : string;
  _format : string;
  _engine : string;
  _encoding : string;
  class_repr : string;
  attrs : gmap string viewer
}.

(** The four class attributes at the end of [RenderFileView]. *)
Definition Render_attrs : gmap string viewer :=
  <["_view_darwin" := view_darwin]>
  (<["_view_freebsd" := view_unixoid]>
  (<["_view_linux" := view_unixoid]>
  (<["_view_windows" := view_windows]> ∅))).

(** Modelled from the spec: the value built by [Source(...)] (the class is
    imported from the package and is not part of [rendering.py]): an
    immutable text blob with filename, directory, format, engine and
    encoding, holding what the constructor is given. *)
Record Source : Type := mkSource {
  Source_source : string;
  Source_filename : string;
  Source_directory : string;
  Source_format : string;
  Source_engine : string;
  Source_encoding : string
}.

(** What [pipe] returns: [bytes], or [str] when an encoding is given. *)
Inductive piped : Type :=
| PipedBytes (b : bytes)
| PipedStr (s : string).

Section Rendering.

Variable env : Env.

(** ** Text and bytes *)

(** [s.encode(encoding)], with the default [errors='strict']. *)
Definition str_encode (encoding : string) (s : string) : result bytes :=
  match codecs_lookup env encoding with
  | None => Raise (LookupError encoding)
  | Some c => match codec_encode env c s with
              | Some b => Ok b
              | None => Raise UnicodeEncodeError
              end
  end.

(** [b.decode(encoding)], with the default [errors='strict']. *)
Definition bytes_decode (encoding : string) (b : bytes) : result string :=
  match codecs_lookup env encoding with
  | None => Raise (LookupError encoding)
  | Some c => match codec_decode env c b with
              | Some s => Ok s
              | None => Raise UnicodeDecodeError
              end
  end.

Fixpoint encode_lines (encoding : string) (lines : list string)
  : result bytes :=
  match lines with
  | [] => Ok []
  | line :: rest =>
      match str_encode encoding line with
      | Raise e => Raise e
      | Ok b => match encode_lines encoding rest with
                | Raise e => Raise e
                | Ok bs => Ok (b ++ bs)%list
                end
      end
  end.

(** Modelled from the spec: [iter(self)], the text that [pipe] hands to
    the process (the iteration protocol lives in the classes that mix
    [Render] in): the source is a text blob, handed over whole. *)
Definition iter (self : Render) : list string := [source self].

(** ** The backend *)

Definition known (name : string) (table : list string) : bool :=
  bool_decide (name ∈ table).

Definition known_opt (name : option string) (table : list string) : bool :=
  match name with None => true | Some n => known n table end.

(** [format], [format:renderer] or [format:renderer:formatter]. *)
Definition format_spec (format : string) (renderer formatter : option string)
  : string :=
  format ++ match renderer with None => "" | Some r => ":" ++ r end
         ++ match formatter with None => "" | Some f => ":" ++ f end.

(** Modelled from the spec: the command builder of [backend] (4.1).  A
    formatter without a renderer is refused first, "for every format
    value" (8), so before the names are checked against the known sets;
    then the argument list is built, the same for the same inputs. *)
Definition command (engine format : string) (renderer formatter : option string)
  : result (list string) :=
  if bool_decide (formatter <> None) && bool_decide (renderer = None)
  then Raise (RequiredArgumentError "formatter given without renderer")
  else if negb (known engine (ENGINES env))
  then Raise (ValueError ("unknown engine: " ++ repr engine))
  else if negb (known format (FORMATS env))
  then Raise (ValueError ("unknown format: " ++ repr format))
  else if negb (known_opt renderer (RENDERERS env))
  then Raise (ValueError ("unknown renderer: " ++ repr (default "" renderer)))
  else if negb (known_opt formatter (FORMATTERS env))
  then Raise (ValueError ("unknown formatter: " ++ repr (default "" formatter)))
  else Ok ["dot"; "-K" ++ engine; "-T" ++ format_spec format renderer formatter].

(** Modelled from the spec: the process runner of [backend] (4.2).  The
    start of the process is recorded whether or not it succeeds; an
    executable that cannot be started gives [ExecutableNotFound] with its
    name, a non-zero exit status [CalledProcessError] with the status and
    the error text; in quiet mode the error text is discarded. *)
Definition run (cmd : list string) (cwd : option string)
    (input : option bytes) (quiet : bool) : IO (bytes * string) :=
  emit (Spawn cmd cwd input quiet) ;;;
  match run_process env cmd cwd input with
  | NotStarted => raise (ExecutableNotFound (hd "" cmd))
  | Exited returncode stdout stderr =>
      let stderr := if quiet then "" else stderr in
      if (returncode =? 0)%Z then ret (stdout, stderr)
      else raise (CalledProcessError returncode stderr)
  end.

(** Modelled from the spec: [backend.render] (4.5, 6): the process is
    started in the directory of the source file with the file as its
    input, and on success the rendered file, source path plus format
    extension, is on disk and its path is returned. *)
Definition backend_render (engine format filepath : string)
    (renderer formatter : option string) (quiet : bool) : IO string :=
  cmd <- lift (command engine format renderer formatter) ;;
  let (dir, file) := path_split filepath in
  run (cmd ++ ["-O"; file])%list (Some dir) None quiet ;;;
  let rendered := filepath ++ "." ++ format in
  write_file rendered ;;;
  ret rendered.

(** Modelled from the spec: [backend.pipe_lines] (4.3, 4.5): the lines
    are encoded with the input encoding and the raw output is
    returned. *)
Definition pipe_lines (engine format : string) (lines : list string)
    (input_encoding : string) (renderer formatter : option string)
    (quiet : bool) : IO bytes :=
  cmd <- lift (command engine format renderer formatter) ;;
  input <- lift (encode_lines input_encoding lines) ;;
  out <- run cmd None (Some input) quiet ;;
  ret (fst out).

(** Modelled from the spec: [backend.pipe_lines_string] (4.3): the
    single-encoding path, one encoding for the input and for the
    output. *)
Definition pipe_lines_string (engine format : string) (lines : list string)
    (encoding : string) (renderer formatter : option string)
    (quiet : bool) : IO string :=
  cmd <- lift (command engine format renderer formatter) ;;
  input <- lift (encode_lines encoding lines) ;;
  out <- run cmd None (Some input) quiet ;;
  lift (bytes_decode encoding (fst out)).

Definition unflatten_flags (stagger : option Z) (fanout : bool)
    (chain : option Z) : list string :=
  let stagger_flag :=
    match stagger with None => [] | Some n => ["-l" ++ pretty n] end in
  let fanout_flag := if fanout then ["-f"] else [] in
  let chain_flag :=
    match chain with None => [] | Some n => ["-c" ++ pretty n] end in
  app stagger_flag (app fanout_flag chain_flag).

(** Modelled from the spec: [backend.unflatten] (4.4, 6): fanout without
    stagger is refused before the executable is invoked; otherwise the
    text goes through the process runner with the same encoding both
    ways. *)
Definition backend_unflatten (source : string) (stagger : option Z)
    (fanout : bool) (chain : option Z) (encoding : string) : IO string :=
  if fanout && bool_decide (stagger = None)
  then raise (RequiredArgumentError "fanout given without stagger")
  else
    input <- lift (str_encode encoding source) ;;
    out <- run ("unflatten" :: unflatten_flags stagger fanout chain)
             None (Some input) false ;;
    lift (bytes_decode encoding (fst out)).

(** Modelled from the spec: a viewer launcher of [backend] (4.5): it
    starts the viewer on the file and does not wait for it. *)
Definition call_viewer (view_method : viewer) (filepath : string)
    (quiet : bool) : IO unit :=
  emit (ViewerStarted view_method filepath quiet).

(** Modelled from the spec: [files.File.save] (4.5, 6): the source is
    written to filename under directory, each defaulting to the
    object's own, and the path is returned. *)
Definition save (self : Render) (filename' directory' : option string)
  : IO string :=
  let filepath := path_join (default (directory self) directory')
                            (default (filename self) filename') in
  write_file filepath ;;;
  ret filepath.

(** ** The methods of [rendering.py] *)

(** [codecs.lookup(encoding)]. *)
Definition lookup_codec (encoding : string) : result N :=
  match codecs_lookup env encoding with
  | Some c => Ok c
  | None => Raise (LookupError encoding)
  end.

(** [Unflatten.unflatten]. *)
Definition unflatten (self : Render) (stagger : option Z) (fanout : bool)
    (chain : option Z) : IO Source :=
  out <- backend_unflatten (source self) stagger fanout chain
           (_encoding self) ;;
  ret (mkSource out (filename self) (directory self)
         (_format self) (_engine self) (_encoding self)).

(** [Pipe.pipe]. *)
Definition pipe (self : Render) (format renderer formatter : option string)
    (quiet : bool) (encoding : option string) : IO piped :=
  let format := default (_format self) format in
  match encoding with
  | Some encoding =>
      requested <- lift (lookup_codec encoding) ;;
      own <- lift (lookup_codec (_encoding self)) ;;
      if bool_decide (requested = own)
      then
        text <- pipe_lines_string (_engine self) format (iter self)
                  encoding renderer formatter quiet ;;
        ret (PipedStr text)
      else
        raw <- pipe_lines (_engine self) format (iter self)
                 (_encoding self) renderer formatter quiet ;;
        text <- lift (bytes_decode encoding raw) ;;
        ret (PipedStr text)
  | None =>
      raw <- pipe_lines (_engine self) format (iter self)
               (_encoding self) renderer formatter quiet ;;
      ret (PipedBytes raw)
  end.

(** The [for ... else] of [_view]: the first name bound on the object. *)
Fixpoint first_view_method (self : Render) (methodnames : list string)
  : option viewer :=
  match methodnames with
  | [] => None
  | name :: rest =>
      match attrs self !! name with
      | Some view_method => Some view_method
      | None => first_view_method self rest
      end
  end.

Definition methodnames (format : string) : list string :=
  [ "_view_" ++ format ++ "_" ++ PLATFORM env;
    "_view_" ++ PLATFORM env ].

Definition no_viewer_message (self : Render) (format : string) : string :=
  class_repr self ++ " has no built-in viewer support for " ++ repr format
    ++ " on " ++ repr (PLATFORM env) ++ " platform".

(** [RenderFileView._view]. *)
Definition _view (self : Render) (filepath format : string) (quiet : bool)
  : IO unit :=
  match first_view_method self (methodnames format) with
  | Some view_method => call_viewer view_method filepath quiet
  | None => raise (RuntimeError (no_viewer_message self format))
  end.

(** [RenderFile.render]. *)
Definition render (self : Render) (filename directory : option string)
    (view cleanup : bool) (format renderer formatter : option string)
    (quiet quiet_view : bool) : IO string :=
  filepath <- save self filename directory ;;
  let format := default (_format self) format in
  rendered <- backend_render (_engine self) format filepath
                renderer formatter quiet ;;
  (if cleanup then os_remove filepath else ret tt) ;;;
  (if quiet_view || view
   then _view self rendered (_format self) quiet_view
   else ret tt) ;;;
  ret rendered.

(** Whether the codec lookups at the start of [pipe] succeed: nothing is
    looked up without a requested encoding. *)
Definition encodings_known (self : Render) (encoding : option string)
  : bool :=
  match encoding with
  | None => true
  | Some e =>
      match codecs_lookup env e, codecs_lookup env (_encoding self) with
      | Some _, Some _ => true
      | _, _ => false
      end
  end.

(** The steps of [render] that come before the viewer: save, render,
    clean up.  Used to state what [render] does afterwards. *)
Definition render_to_file (self : Render) (filename directory : option string)
    (cleanup : bool) (format renderer formatter : option string)
    (quiet : bool) : IO string :=
  filepath <- save self filename directory ;;
  let format := default (_format self) format in
  rendered <- backend_render (_engine self) format filepath
                renderer formatter quiet ;;
  (if cleanup then os_remove filepath else ret tt) ;;;
  ret rendered.

(** [RenderFileView.view]. *)
Definition view (self : Render) (filename directory : option string)
    (cleanup quiet quiet_view : bool) : IO string :=
  render self filename directory true cleanup None None None
    quiet quiet_view.

End Rendering.

(** ** A concrete environment

    A Linux host with a few known names, the codecs [ascii] (any case of
    the name reaches the same registry entry) and [latin-1], a [dot] that
    answers with the first bytes of the requested format and fails for
    the engine [neato], and an [unflatten] that returns its input. *)

Definition is_ascii_text (s : string) : bool :=
  forallb (fun c => (N_of_ascii c <? 128)%N) (list_ascii_of_string s).

Definition is_ascii_bytes (b : bytes) : bool :=
  forallb (fun x => (Byte.to_N x <? 128)%N) b.

Definition demo_lookup (encoding : string) : option N :=
  if bool_decide (encoding = "ascii") then Some 0%N
  else if bool_decide (encoding = "ASCII") then Some 0%N
  else if bool_decide (encoding = "latin-1") then Some 1%N
  else None.

Definition demo_encode (c : N) (s : string) : option bytes :=
  if (c =? 0)%N
  then if is_ascii_text s then Some (list_byte_of_string s) else None
  else Some (list_byte_of_string s).

Definition demo_decode (c : N) (b : bytes) : option string :=
  if (c =? 0)%N
  then if is_ascii_bytes b then Some (string_of_list_byte b) else None
  else Some (string_of_list_byte b).

Definition png_magic : bytes := [x89; x50; x4e; x47].

Definition demo_process (cmd : list string) (cwd : option string)
    (input : option bytes) : proc_outcome :=
  match cmd with
  | "unflatten" :: _ => Exited 0 (default [] input) ""
  | "dot" :: "-Kneato" :: _ => Exited 1 [] "boom"
  | "dot" :: _ :: "-Tpng" :: _ => Exited 0 png_magic ""
  | "dot" :: _ => Exited 0 (list_byte_of_string "<?xml version=") ""
  | _ => NotStarted
  end.

Definition demo_env : Env := {|
  PLATFORM := "linux";
  ENGINES := ["dot"; "neato"];
  FORMATS := ["pdf"; "png"; "svg"];
  RENDERERS := ["cairo"; "gd"];
  FORMATTERS := ["cairo"; "core"; "gd"];
  codecs_lookup := demo_lookup;
  codec_encode := demo_encode;
  codec_decode := demo_decode;
  run_process := demo_process
|}.

(** The same host reporting a platform without launcher. *)
Definition demo_sunos_env : Env := {|
  PLATFORM := "sunos";
  ENGINES := ["dot"; "neato"];
  FORMATS := ["pdf"; "png"; "svg"];
  RENDERERS := ["cairo"; "gd"];
  FORMATTERS := ["cairo"; "core"; "gd"];
  codecs_lookup := demo_lookup;
  codec_encode := demo_encode;
  codec_decode := demo_decode;
  run_process := demo_process
|}.

Definition demo_graph : Render := {|
  source := "graph { a -- b }";
  filename := "g.gv";
  directory := "out";
  _format := "pdf";
  _engine := "dot";
  _encoding := "latin-1";
  class_repr := "<class 'graphviz.rendering.Render'>";
  attrs := Render_attrs
|}.

(** An object of a subclass that binds a viewer for PNG files on
    Linux. *)
Definition demo_png_viewer : Render := {|
  source := "graph { a -- b }";
  filename := "g.gv";
  directory := "out";
  _format := "pdf";
  _engine := "dot";
  _encoding := "latin-1";
  class_repr := "<class 'PngViewing'>";
  attrs := <["_view_png_linux" := view_custom "png"]> Render_attrs
|}.

Definition demo_neato : Render := {|
  source := "graph { a -- b }";
  filename := "g.gv";
  directory := "out";
  _format := "pdf";
  _engine := "neato";
  _encoding := "latin-1";
  class_repr := "<class 'graphviz.rendering.Render'>";
  attrs := Render_attrs
|}.

Definition demo_ascii_graph : Render := {|
  source := "graph { a -- b }";
  filename := "g.gv";
  directory := "out";
  _format := "svg";
  _engine := "dot";
  _encoding := "ascii";
  class_repr := "<class 'graphviz.rendering.Render'>";
  attrs := Render_attrs
|}.

Definition empty_world : world := World ∅ [].

Definition demo_input : bytes := list_byte_of_string "graph { a -- b }".

(** The launcher that the class attributes at the end of
    [RenderFileView] bind for a platform name. *)
Definition stock_viewer (platform : string) : option viewer :=
  if bool_decide (platform = "darwin") then Some view_darwin
  else if bool_decide (platform = "freebsd") then Some view_unixoid
  else if bool_decide (platform = "linux") then Some view_unixoid
  else if bool_decide (platform = "windows") then Some view_windows
  else None.

(** The object with the attribute [name] bound to a launcher, the other
    attributes as they were. *)
Definition with_attr (self : Render) (name : string) (view_method : viewer)
  : Render := {|
  source := source self;
  filename := filename self;
  directory := directory self;
  _format := _format self;
  _engine := _engine self;
  _encoding := _encoding self;
  class_repr := class_repr self;
  attrs := <[name := view_method]> (attrs self)
|}.

(** ** Properties *)

Example repr_pdf : repr "pdf" = "'pdf'".
Proof. reflexivity. Qed.

Example path_split_ex : path_split "out/sub/g.gv" = ("out/sub", "g.gv").
Proof. reflexivity. Qed.

Example path_join_ex : path_join "out" "g.gv" = "out/g.gv".
Proof. reflexivity. Qed.

Example render_demo_trace :
  fst (render demo_env demo_graph None None true true None None None
         false false empty_world) = Ok "out/g.gv.pdf".
Proof. vm_compute. reflexivity. Qed.

Example render_failure_keeps_source :
  let call := render demo_env demo_neato None None true true None None None
                false false empty_world in
  fst call = Raise (CalledProcessError 1 "boom")
  /\ bool_decide ("out/g.gv" ∈ disk (snd call)) = true
  /\ removes (snd call) = [].
Proof. vm_compute. repeat split. Qed.

Example render_success_removes_source :
  let call := render demo_env demo_graph None None true true None None None
                false false empty_world in
  fst call = Ok "out/g.gv.pdf"
  /\ bool_decide ("out/g.gv" ∈ disk (snd call)) = false
  /\ removes (snd call) = [Remove "out/g.gv"].
Proof. vm_compute. repeat split. Qed.

Example no_viewer_on_sunos :
  _view demo_sunos_env demo_graph "out/g.gv.pdf" "pdf" false empty_world
  = (Raise (RuntimeError
       "<class 'graphviz.rendering.Render'> has no built-in viewer support for 'pdf' on 'sunos' platform"),
     empty_world).
Proof. reflexivity. Qed.

Example pipe_svg_text :
  fst (pipe demo_env demo_ascii_graph None None None false (Some "ASCII")
         empty_world) = Ok (PipedStr "<?xml version=").
Proof. reflexivity. Qed.

(** *** The monad *)

Lemma bind_Ok {A B} (m : IO A) (k : A -> IO B) w a w' :
  m w = (Ok a, w') -> bind m k w = k a w'.
Proof. intros H. unfold bind. now rewrite H. Qed.

Lemma bind_Raise {A B} (m : IO A) (k : A -> IO B) w e w' :
  m w = (Raise e, w') -> bind m k w = (Raise e, w').
Proof. intros H. unfold bind. now rewrite H. Qed.

Lemma bind_assoc {A B C} (m : IO A) (k : A -> IO B) (h : B -> IO C) w :
  bind (bind m k) h w = bind m (fun a => bind (k a) h) w.
Proof. unfold bind. destruct (m w) as [[a|e] w']; reflexivity. Qed.

Lemma bind_cong {A B} (m : IO A) (k k' : A -> IO B) w :
  (forall a w', k a w' = k' a w') -> bind m k w = bind m k' w.
Proof. intros H. unfold bind. destruct (m w) as [[a|e] w']; auto. Qed.

(** *** Strings *)

Lemma append_assoc (a b c : string) : (a ++ b) ++ c = a ++ b ++ c.
Proof.
  induction a as [|x a IH]; [reflexivity|].
  change (String x ((a ++ b) ++ c) = String x (a ++ b ++ c)).
  now rewrite IH.
Qed.

Section RenderingFacts.

Variable env : Env.

(** *** What each step does to the world *)

Lemma run_frame cmd cwd input quiet w r w' :
  run env cmd cwd input quiet w = (r, w') ->
  disk w' = disk w /\ trace w' = Spawn cmd cwd input quiet :: trace w.
Proof.
  unfold run. io_unfold.
  destruct (run_process env cmd cwd input) as [|rc out err].
  - intros [= <- <-]. now split.
  - destruct (rc =? 0)%Z; intros [= <- <-]; now split.
Qed.

Lemma backend_render_frame engine format filepath renderer formatter quiet
    w r w' :
  backend_render env engine format filepath renderer formatter quiet w
    = (r, w') ->
  disk w ⊆ disk w' /\ removes w' = removes w /\ viewers w' = viewers w.
Proof.
  unfold backend_render.
  destruct (command env engine format renderer formatter) as [cmd|e].
  2:{ io_unfold. intros [= <- <-]. now split. }
  rewrite (bind_Ok _ _ w cmd w) by reflexivity.
  destruct (path_split filepath) as [dir file].
  destruct (run env (cmd ++ ["-O"; file]) (Some dir) None quiet w)
    as [[out|e] w1] eqn:Hrun;
    destruct (run_frame _ _ _ _ _ _ _ Hrun) as [Hd Ht].
  - rewrite (bind_Ok _ _ _ _ _ Hrun). unfold write_file. io_unfold.
    intros [= <- <-]. unfold removes, viewers. simpl. rewrite Ht. simpl.
    split; [rewrite Hd; apply union_subseteq_r | now split].
  - rewrite (bind_Raise _ _ _ _ _ Hrun). intros [= <- <-].
    unfold removes, viewers. rewrite Ht, Hd. simpl. now split.
Qed.

Lemma backend_render_raise engine format filepath renderer formatter quiet
    w e w' :
  backend_render env engine format filepath renderer formatter quiet w
    = (Raise e, w') ->
  disk w' = disk w.
Proof.
  unfold backend_render.
  destruct (command env engine format renderer formatter) as [cmd|e'].
  2:{ io_unfold. now intros [= <- <-]. }
  rewrite (bind_Ok _ _ w cmd w) by reflexivity.
  destruct (path_split filepath) as [dir file].
  destruct (run env (cmd ++ ["-O"; file]) (Some dir) None quiet w)
    as [[out|e'] w1] eqn:Hrun;
    destruct (run_frame _ _ _ _ _ _ _ Hrun) as [Hd Ht].
  - rewrite (bind_Ok _ _ _ _ _ Hrun). unfold write_file. io_unfold.
    discriminate.
  - rewrite (bind_Raise _ _ _ _ _ Hrun). now intros [= <- <-].
Qed.

Lemma view_frame self filepath format quiet w r w' :
  _view env self filepath format quiet w = (r, w') ->
  disk w' = disk w /\ removes w' = removes w /\ spawns w' = spawns w.
Proof.
  unfold _view, call_viewer.
  destruct (first_view_method self (methodnames env format));
    io_unfold; intros [= <- <-]; now split.
Qed.

(** *** Unflatten *)

(** C5: for every source, [unflatten] with [fanout=True] and no
    [stagger] fails with [RequiredArgumentError]; the world is the one
    before the call, so the unflatten executable has not been invoked. *)
Theorem unflatten_fanout_requires_stagger (self : Render) (chain : option Z)
    (w : world) :
  unflatten env self None true chain w
  = (Raise (RequiredArgumentError "fanout given without stagger"), w).
Proof. reflexivity. Qed.

(** C8: a successful [unflatten] returns a [Source] whose text is the
    output of the preprocessor and whose filename, directory, format,
    engine and encoding are those of the object it was called on. *)
Theorem unflatten_keeps_metadata (self : Render) (stagger : option Z)
    (fanout : bool) (chain : option Z) (w w' : world) (s : Source) :
  unflatten env self stagger fanout chain w = (Ok s, w') ->
  backend_unflatten env (source self) stagger fanout chain (_encoding self) w
    = (Ok (Source_source s), w')
  /\ Source_filename s = filename self
  /\ Source_directory s = directory self
  /\ Source_format s = _format self
  /\ Source_engine s = _engine self
  /\ Source_encoding s = _encoding self.
Proof.
  unfold unflatten.
  destruct (backend_unflatten env (source self) stagger fanout chain
              (_encoding self) w) as [[out|e] w1] eqn:Hb.
  - rewrite (bind_Ok _ _ _ _ _ Hb). unfold ret.
    intros [= <- <-]. simpl. repeat split.
  - rewrite (bind_Raise _ _ _ _ _ Hb). discriminate.
Qed.

(** *** Viewer dispatch *)

Lemma first_view_method_two (self : Render) (n1 n2 : string) :
  first_view_method self [n1; n2]
  = match attrs self !! n1 with
    | Some v => Some v
    | None => attrs self !! n2
    end.
Proof.
  simpl. destruct (attrs self !! n1); [reflexivity|].
  now destruct (attrs self !! n2).
Qed.

Lemma no_viewer_message_names (self : Render) (format : string) :
  contains (repr format) (no_viewer_message env self format)
  /\ contains (repr (PLATFORM env)) (no_viewer_message env self format).
Proof.
  unfold contains, no_viewer_message. split.
  - exists (class_repr self ++ " has no built-in viewer support for "),
           (" on " ++ repr (PLATFORM env) ++ " platform").
    now rewrite append_assoc.
  - exists (class_repr self ++ " has no built-in viewer support for "
            ++ repr format ++ " on "), " platform".
    now rewrite !append_assoc.
Qed.

(** C6: [_view] takes the launcher bound to the name made of format and
    platform, else the one bound to the name made of the platform alone;
    with neither it raises a [RuntimeError] whose message holds the
    [repr] of the format and of the platform. *)
Theorem view_dispatch (self : Render) (filepath format : string)
    (quiet : bool) (w : world) :
  _view env self filepath format quiet w
  = match attrs self !! ("_view_" ++ format ++ "_" ++ PLATFORM env) with
    | Some by_format => call_viewer by_format filepath quiet w
    | None =>
        match attrs self !! ("_view_" ++ PLATFORM env) with
        | Some by_platform => call_viewer by_platform filepath quiet w
        | None => (Raise (RuntimeError (no_viewer_message env self format)), w)
        end
    end
  /\ contains (repr format) (no_viewer_message env self format)
  /\ contains (repr (PLATFORM env)) (no_viewer_message env self format).
Proof.
  split; [|apply no_viewer_message_names].
  unfold _view, methodnames. rewrite first_view_method_two.
  destruct (attrs self !! ("_view_" ++ format ++ "_" ++ PLATFORM env));
    [reflexivity|].
  now destruct (attrs self !! ("_view_" ++ PLATFORM env)).
Qed.

(** *** View *)

(** C7: [view] is [render] with the same filename, directory, cleanup,
    quiet and quiet_view, with [view=True] and the other arguments at
    their defaults: same result, same path, same effects. *)
Theorem view_is_render_with_view (self : Render)
    (filename directory : option string) (cleanup quiet quiet_view : bool)
    (w : world) :
  view env self filename directory cleanup quiet quiet_view w
  = render env self filename directory true cleanup None None None
      quiet quiet_view w.
Proof. reflexivity. Qed.

(** *** Render to file *)

(** C2: with [cleanup=True] the saved source file is removed exactly when
    the rendering step succeeds: after a successful rendering the file
    is not on disk and one [os.remove] of it has been done; when the
    rendering step raises, [render] raises the same, the file is on disk
    and nothing has been removed. *)
Theorem cleanup_iff_rendering_succeeds (self : Render)
    (fname dname : option string) (view : bool)
    (format renderer formatter : option string) (quiet quiet_view : bool)
    (w : world) :
  let filepath := path_join (default (directory self) dname)
                            (default (filename self) fname) in
  let saved := World ({[filepath]} ∪ disk w) (trace w) in
  let call := render env self fname dname view true format renderer
                formatter quiet quiet_view w in
  match fst (backend_render env (_engine self)
               (default (_format self) format) filepath renderer formatter
               quiet saved) with
  | Ok _ =>
      (filepath ∉ disk (snd call))
      /\ removes (snd call) = Remove filepath :: removes w
  | Raise e =>
      fst call = Raise e
      /\ (filepath ∈ disk (snd call))
      /\ removes (snd call) = removes w
  end.
Proof.
  intros filepath saved call. subst call. unfold render, save.
  rewrite bind_assoc.
  rewrite (bind_Ok _ _ w tt saved) by reflexivity.
  rewrite (bind_Ok _ _ saved filepath saved) by reflexivity.
  fold filepath.
  destruct (backend_render env (_engine self) (default (_format self) format)
              filepath renderer formatter quiet saved)
    as [[rendered|e] w1] eqn:Hb; simpl.
  - destruct (backend_render_frame _ _ _ _ _ _ _ _ _ Hb) as (Hd & Hr & _).
    rewrite (bind_Ok _ _ _ _ _ Hb).
    assert (Hin : filepath ∈ disk w1).
    { apply Hd. subst saved. simpl. apply elem_of_union_l.
      now apply elem_of_singleton. }
    set (w2 := World (disk w1 ∖ {[filepath]}) (Remove filepath :: trace w1)).
    assert (Hrm : os_remove filepath w1 = (Ok tt, w2)).
    { unfold os_remove. now rewrite decide_True. }
    rewrite (bind_Ok _ _ _ _ _ Hrm).
    destruct ((if quiet_view || view
               then _view env self rendered (_format self) quiet_view
               else ret tt) w2) as [r3 w3] eqn:Hv.
    assert (Hf : disk w3 = disk w2 /\ removes w3 = removes w2).
    { destruct (quiet_view || view).
      - destruct (view_frame _ _ _ _ _ _ _ Hv) as (? & ? & _). now split.
      - unfold ret in Hv. injection Hv as <- <-. now split. }
    destruct Hf as [Hd3 Hr3].
    assert (Hfin : disk (snd (bind (if quiet_view || view
                 then _view env self rendered (_format self) quiet_view
                 else ret tt) (fun _ => ret rendered) w2)) = disk w3
              /\ removes (snd (bind (if quiet_view || view
                 then _view env self rendered (_format self) quiet_view
                 else ret tt) (fun _ => ret rendered) w2)) = removes w3).
    { unfold bind. rewrite Hv. destruct r3; now split. }
    destruct Hfin as [-> ->]. rewrite Hd3, Hr3. subst w2. simpl. split.
    + intros Hx. apply elem_of_difference in Hx as [_ Hx].
      apply Hx. now apply elem_of_singleton.
    + unfold removes in *. simpl. now rewrite Hr.
  - destruct (backend_render_frame _ _ _ _ _ _ _ _ _ Hb) as (Hd & Hr & _).
    rewrite (bind_Raise _ _ _ _ _ Hb). simpl. repeat split.
    + apply Hd. subst saved. simpl. apply elem_of_union_l.
      now apply elem_of_singleton.
    + exact Hr.
Qed.

(** [render] is [render_to_file] followed by the viewer step. *)
Lemma render_steps (self : Render) (fname dname : option string)
    (view cleanup : bool) (format renderer formatter : option string)
    (quiet quiet_view : bool) (w : world) :
  render env self fname dname view cleanup format renderer formatter
    quiet quiet_view w
  = bind (render_to_file env self fname dname cleanup format renderer
            formatter quiet)
      (fun rendered =>
         bind (if quiet_view || view
               then _view env self rendered (_format self) quiet_view
               else ret tt)
           (fun _ => ret rendered)) w.
Proof.
  unfold render, render_to_file. symmetry.
  rewrite bind_assoc. apply bind_cong. intros filepath w0. cbv beta zeta.
  rewrite bind_assoc. apply bind_cong. intros rendered w1. cbv beta.
  rewrite bind_assoc. apply bind_cong. intros _ w2. reflexivity.
Qed.

Lemma render_to_file_viewers (self : Render) (fname dname : option string)
    (cleanup : bool) (format renderer formatter : option string)
    (quiet : bool) (w : world) :
  viewers (snd (render_to_file env self fname dname cleanup format renderer
                  formatter quiet w)) = viewers w.
Proof.
  unfold render_to_file, save.
  rewrite bind_assoc.
  set (filepath := path_join (default (directory self) dname)
                     (default (filename self) fname)).
  set (saved := World ({[filepath]} ∪ disk w) (trace w)).
  rewrite (bind_Ok _ _ w tt saved) by reflexivity.
  rewrite (bind_Ok _ _ saved filepath saved) by reflexivity.
  destruct (backend_render env (_engine self) (default (_format self) format)
              filepath renderer formatter quiet saved)
    as [[rendered|e] w1] eqn:Hb;
    destruct (backend_render_frame _ _ _ _ _ _ _ _ _ Hb) as (_ & _ & Hv).
  - rewrite (bind_Ok _ _ _ _ _ Hb).
    destruct cleanup.
    + unfold os_remove, bind, ret.
      destruct (decide (filepath ∈ disk w1)); simpl; exact Hv.
    + exact Hv.
  - rewrite (bind_Raise _ _ _ _ _ Hb). exact Hv.
Qed.

(** C10: once the file is rendered, [quiet_view=True] runs the viewer
    dispatch on the rendered file although [view] is false; with both
    false, [render] ends with the rendering and no viewer is started. *)
Theorem quiet_view_implies_view (self : Render) (fname dname : option string)
    (cleanup : bool) (format renderer formatter : option string)
    (quiet : bool) (w : world) :
  (forall rendered w1,
      render_to_file env self fname dname cleanup format renderer formatter
        quiet w = (Ok rendered, w1) ->
      render env self fname dname false cleanup format renderer formatter
        quiet true w
      = bind (_view env self rendered (_format self) true)
          (fun _ => ret rendered) w1)
  /\ render env self fname dname false cleanup format renderer formatter
       quiet false w
     = render_to_file env self fname dname cleanup format renderer formatter
         quiet w
  /\ viewers (snd (render env self fname dname false cleanup format renderer
                     formatter quiet false w)) = viewers w.
Proof.
  assert (Hff : render env self fname dname false cleanup format renderer
                  formatter quiet false w
                = render_to_file env self fname dname cleanup format renderer
                    formatter quiet w).
  { rewrite render_steps. unfold bind, ret. simpl.
    destruct (render_to_file env self fname dname cleanup format renderer
                formatter quiet w) as [[rendered|e] w1]; reflexivity. }
  split; [|split].
  - intros rendered w1 H. rewrite render_steps.
    now rewrite (bind_Ok _ _ _ _ _ H).
  - exact Hff.
  - rewrite Hff. apply render_to_file_viewers.
Qed.

(** *** Pipe *)

Lemma encode_lines_same_codec (e1 e2 : string) (c : N) (lines : list string) :
  codecs_lookup env e1 = Some c -> codecs_lookup env e2 = Some c ->
  encode_lines env e1 lines = encode_lines env e2 lines.
Proof.
  intros H1 H2. induction lines as [|line rest IH]; [reflexivity|].
  simpl. unfold str_encode. rewrite H1, H2, IH. reflexivity.
Qed.

(** C3: when the requested encoding resolves to the codec of the
    object's own encoding, [pipe] with that encoding is [pipe] without
    encoding followed by decoding its bytes with the requested
    encoding: same text or same exception, same effects. *)
Theorem pipe_same_encoding (self : Render)
    (format renderer formatter : option string) (quiet : bool)
    (encoding : string) (c : N) (w : world) :
  codecs_lookup env encoding = Some c ->
  codecs_lookup env (_encoding self) = Some c ->
  pipe env self format renderer formatter quiet (Some encoding) w
  = bind (pipe env self format renderer formatter quiet None)
      (fun raw =>
         match raw with
         | PipedBytes b =>
             bind (lift (bytes_decode env encoding b))
               (fun text => ret (PipedStr text))
         | PipedStr text => ret (PipedStr text)
         end) w.
Proof.
  intros Hreq Hown. unfold pipe, lookup_codec. rewrite Hreq, Hown.
  rewrite (bind_Ok _ _ w c w) by reflexivity.
  rewrite (bind_Ok _ _ w c w) by reflexivity.
  rewrite bool_decide_eq_true_2 by reflexivity.
  unfold pipe_lines_string, pipe_lines.
  rewrite (encode_lines_same_codec _ _ c _ Hreq Hown).
  symmetry. rewrite !bind_assoc. apply bind_cong. intros cmd w0. cbv beta.
  rewrite !bind_assoc. apply bind_cong. intros input w1. cbv beta.
  rewrite !bind_assoc. apply bind_cong. intros out w2. reflexivity.
Qed.

(** C9: when the requested encoding resolves to another codec than the
    object's own and the bytes that [pipe] gets from the process do not
    decode with it, [pipe] raises [UnicodeDecodeError]: no text is
    returned in their place. *)
Theorem pipe_decode_error_propagates (self : Render)
    (format renderer formatter : option string) (quiet : bool)
    (encoding : string) (requested own : N) (raw : bytes) (w w' : world) :
  codecs_lookup env encoding = Some requested ->
  codecs_lookup env (_encoding self) = Some own ->
  requested <> own ->
  pipe env self format renderer formatter quiet None w
    = (Ok (PipedBytes raw), w') ->
  codec_decode env requested raw = None ->
  pipe env self format renderer formatter quiet (Some encoding) w
  = (Raise UnicodeDecodeError, w').
Proof.
  intros Hreq Hown Hne Hraw Hdec. unfold pipe, lookup_codec in *.
  rewrite Hreq, Hown.
  rewrite (bind_Ok _ _ w requested w) by reflexivity.
  rewrite (bind_Ok _ _ w own w) by reflexivity.
  rewrite bool_decide_eq_false_2 by exact Hne.
  destruct (pipe_lines env (_engine self) (default (_format self) format)
              (iter self) (_encoding self) renderer formatter quiet w)
    as [[b|e] w1] eqn:Hp.
  - rewrite (bind_Ok _ _ _ _ _ Hp) in Hraw. unfold ret in Hraw.
    injection Hraw as -> ->.
    rewrite (bind_Ok _ _ _ _ _ Hp).
    unfold bind, lift, bytes_decode. now rewrite Hreq, Hdec.
  - rewrite (bind_Raise _ _ _ _ _ Hp) in Hraw. discriminate.
Qed.

(** C4, with the encodings known: for every format, [render], and [pipe] when no
    encoding is requested or the requested and the object's own encoding
    are names of known codecs, called with a formatter and no renderer
    fail with [RequiredArgumentError], and no process has been started
    by then. *)
Theorem formatter_requires_renderer (self : Render) (format : option string)
    (formatter : string) (quiet : bool) (encoding : option string)
    (w : world) :
  encodings_known env self encoding = true ->
  pipe env self format None (Some formatter) quiet encoding w
  = (Raise (RequiredArgumentError "formatter given without renderer"), w)
  /\ forall fname dname view cleanup quiet_view,
      let call := render env self fname dname view cleanup format None
                    (Some formatter) quiet quiet_view w in
      fst call
      = Raise (RequiredArgumentError "formatter given without renderer")
      /\ spawns (snd call) = spawns w.
Proof.
  intros Henc. split.
  - unfold pipe, lookup_codec, encodings_known in *.
    destruct encoding as [e|].
    + destruct (codecs_lookup env e) as [c1|]; [|discriminate].
      destruct (codecs_lookup env (_encoding self)) as [c2|]; [|discriminate].
      rewrite (bind_Ok _ _ w c1 w) by reflexivity.
      rewrite (bind_Ok _ _ w c2 w) by reflexivity.
      destruct (bool_decide (c1 = c2)); reflexivity.
    + reflexivity.
  - intros fname dname view cleanup quiet_view. split; reflexivity.
Qed.

End RenderingFacts.

(** ** The properties at concrete inputs *)

Lemma unflatten_keeps_metadata_witness :
  let s := mkSource "graph { a -- b }" "g.gv" "out" "pdf" "dot" "latin-1" in
  let w' := World ∅ [Spawn ["unflatten"; "-l3"; "-f"] None
                       (Some demo_input) false] in
  unflatten demo_env demo_graph (Some 3%Z) true None empty_world = (Ok s, w')
  /\ (backend_unflatten demo_env (source demo_graph) (Some 3%Z) true None
        (_encoding demo_graph) empty_world = (Ok (Source_source s), w')
      /\ Source_filename s = filename demo_graph
      /\ Source_directory s = directory demo_graph
      /\ Source_format s = _format demo_graph
      /\ Source_engine s = _engine demo_graph
      /\ Source_encoding s = _encoding demo_graph).
Proof.
  intros s w'. split; [reflexivity|].
  apply (unflatten_keeps_metadata demo_env demo_graph (Some 3%Z) true None
           empty_world w' s).
  reflexivity.
Defined.

Lemma quiet_view_implies_view_witness :
  let w1 := World ({["out/g.gv.pdf"]} ∪ ({["out/g.gv"]} ∪ ∅))
              [Spawn ["dot"; "-Kdot"; "-Tpdf"; "-O"; "g.gv"] (Some "out")
                 None false] in
  render_to_file demo_env demo_graph None None false None None None false
    empty_world = (Ok "out/g.gv.pdf", w1)
  /\ render demo_env demo_graph None None false false None None None
       false true empty_world
     = bind (_view demo_env demo_graph "out/g.gv.pdf" (_format demo_graph)
               true)
         (fun _ => ret "out/g.gv.pdf") w1.
Proof.
  intros w1. split; [reflexivity|].
  apply (proj1 (quiet_view_implies_view demo_env demo_graph None None false
                  None None None false empty_world)).
  reflexivity.
Defined.

Lemma pipe_same_encoding_witness :
  codecs_lookup demo_env "ASCII" = Some 0%N
  /\ codecs_lookup demo_env (_encoding demo_ascii_graph) = Some 0%N
  /\ pipe demo_env demo_ascii_graph None None None false (Some "ASCII")
       empty_world
     = bind (pipe demo_env demo_ascii_graph None None None false None)
         (fun raw =>
            match raw with
            | PipedBytes b =>
                bind (lift (bytes_decode demo_env "ASCII" b))
                  (fun text => ret (PipedStr text))
            | PipedStr text => ret (PipedStr text)
            end) empty_world.
Proof.
  split; [reflexivity|]. split; [reflexivity|].
  apply (pipe_same_encoding demo_env demo_ascii_graph None None None false
           "ASCII" 0%N empty_world); reflexivity.
Defined.

Lemma pipe_decode_error_propagates_witness :
  let w' := World ∅ [Spawn ["dot"; "-Kdot"; "-Tpng"] None (Some demo_input)
                       false] in
  codecs_lookup demo_env "ascii" = Some 0%N
  /\ codecs_lookup demo_env (_encoding demo_graph) = Some 1%N
  /\ 0%N <> 1%N
  /\ pipe demo_env demo_graph (Some "png") None None false None empty_world
     = (Ok (PipedBytes png_magic), w')
  /\ codec_decode demo_env 0%N png_magic = None
  /\ pipe demo_env demo_graph (Some "png") None None false (Some "ascii")
       empty_world
     = (Raise UnicodeDecodeError, w').
Proof.
  intros w'.
  assert (Hne : 0%N <> 1%N) by discriminate.
  repeat (split; [first [reflexivity | exact Hne]|]).
  apply (pipe_decode_error_propagates demo_env demo_graph (Some "png") None
           None false "ascii" 0%N 1%N png_magic empty_world w');
    first [reflexivity | exact Hne].
Defined.

Lemma formatter_requires_renderer_witness :
  encodings_known demo_env demo_graph (Some "ascii") = true
  /\ pipe demo_env demo_graph (Some "svg") None (Some "cairo") false
       (Some "ascii") empty_world
     = (Raise (RequiredArgumentError "formatter given without renderer"),
        empty_world)
  /\ fst (render demo_env demo_graph None None true true (Some "svg") None
            (Some "cairo") false false empty_world)
     = Raise (RequiredArgumentError "formatter given without renderer")
  /\ spawns (snd (render demo_env demo_graph None None true true
                    (Some "svg") None (Some "cairo") false false
                    empty_world)) = spawns empty_world.
Proof.
  split; [reflexivity|].
  destruct (formatter_requires_renderer demo_env demo_graph (Some "svg")
              "cairo" false (Some "ascii") empty_world eq_refl) as [Hp Hr].
  split; [exact Hp|].
  exact (Hr None None true true false).
Defined.

(** With a formatter, no renderer and an encoding that names no codec,
    [pipe] fails with [LookupError], raised by the codec lookup that
    comes before the backend is called. *)
Lemma formatter_without_renderer_unknown_encoding :
  let call := pipe demo_env demo_graph (Some "svg") None (Some "cairo")
                false (Some "klingon") empty_world in
  fst call = Raise (LookupError "klingon")
  /\ forall msg, fst call <> Raise (RequiredArgumentError msg).
Proof. intros call. split; [reflexivity|]. intros msg. discriminate. Qed.

(** C1: [render] uses the format argument for the rendering and the
    object's default format for the viewer: with the default [pdf], the
    argument [png] and a launcher bound for PNG files on the platform,
    the PNG file is rendered and then opened by the launcher of the
    platform, not by the one [_view] selects for [png]. *)
Theorem render_views_by_default_format :
  let call := render demo_env demo_png_viewer None None true false
                (Some "png") None None false false empty_world in
  fst call = Ok "out/g.gv.png"
  /\ trace (snd call)
     = [ViewerStarted view_unixoid "out/g.gv.png" false;
        Spawn ["dot"; "-Kdot"; "-Tpng"; "-O"; "g.gv"] (Some "out") None
          false]
  /\ fst (_view demo_env demo_png_viewer "out/g.gv.png" "png" false
            empty_world) = Ok tt
  /\ trace (snd (_view demo_env demo_png_viewer "out/g.gv.png" "png" false
                   empty_world))
     = [ViewerStarted (view_custom "png") "out/g.gv.png" false].
Proof. vm_compute. repeat split. Qed.

(** ** Further properties of [rendering.py] *)

(** *** Names of viewer methods *)

Lemma append_cons (c : ascii) (a b : string) :
  String c a ++ b = String c (a ++ b).
Proof. reflexivity. Qed.

Lemma append_inv_head (a x y : string) : a ++ x = a ++ y -> x = y.
Proof.
  induction a as [|c a IH]; [trivial|].
  rewrite !append_cons. intros [= H]. auto.
Qed.

Lemma length_append (a b : string) :
  String.length (a ++ b) = String.length a + String.length b.
Proof.
  induction a as [|c a IH]; [reflexivity|].
  rewrite append_cons. simpl. now rewrite IH.
Qed.

Lemma append_inv_tail (x y b : string) : x ++ b = y ++ b -> x = y.
Proof.
  revert y. induction x as [|c x IH]; intros [|d y] H.
  - reflexivity.
  - apply (f_equal String.length) in H.
    rewrite !length_append in H. simpl in H. lia.
  - apply (f_equal String.length) in H.
    rewrite !length_append in H. simpl in H. lia.
  - rewrite !append_cons in H. injection H as -> H. f_equal. now apply IH.
Qed.

Lemma has_char_append (c : ascii) (a b : string) :
  has_char c (a ++ b) = has_char c a || has_char c b.
Proof.
  induction a as [|d a IH]; [reflexivity|].
  rewrite append_cons. simpl. destruct (decide (c = d)); [reflexivity|].
  exact IH.
Qed.

(** The name made of format and platform holds an underscore after the
    prefix; the names the class binds do not. *)
Lemma stock_lookup_by_format (format platform : string) :
  Render_attrs !! ("_view_" ++ format ++ "_" ++ platform) = None.
Proof.
  assert (Hu : has_char "_" (format ++ "_" ++ platform) = true).
  { rewrite has_char_append. rewrite (has_char_append _ "_").
    simpl. apply orb_true_r. }
  unfold Render_attrs.
  repeat (rewrite lookup_insert; case_decide as Heq;
          [ apply (append_inv_head "_view_") in Heq; rewrite <- Heq in Hu;
            discriminate Hu | clear Heq ]).
  apply lookup_empty.
Qed.

Lemma stock_lookup_by_platform (platform : string) :
  Render_attrs !! ("_view_" ++ platform) = stock_viewer platform.
Proof.
  unfold Render_attrs, stock_viewer.
  repeat (rewrite lookup_insert; case_decide as Heq;
          [ apply (append_inv_head "_view_") in Heq; subst platform;
            reflexivity
          | rewrite bool_decide_eq_false_2
              by (intros ->; apply Heq; reflexivity); clear Heq ]).
  apply lookup_empty.
Qed.

Section MoreRenderingFacts.

Variable env : Env.

(** *** Viewer dispatch on the class as it is *)

(** X1: for an object whose viewer attributes are the four that
    [RenderFileView] binds, the format never selects the launcher:
    [_view] starts the launcher of the platform on darwin, freebsd,
    linux and windows, and raises [RuntimeError] on any other
    platform. *)
Theorem stock_view_by_platform (self : Render) (filepath format : string)
    (quiet : bool) (w : world) :
  attrs self = Render_attrs ->
  _view env self filepath format quiet w
  = match stock_viewer (PLATFORM env) with
    | Some view_method => call_viewer view_method filepath quiet w
    | None => (Raise (RuntimeError (no_viewer_message env self format)), w)
    end.
Proof.
  intros Hattrs. unfold _view, methodnames.
  rewrite first_view_method_two, Hattrs.
  rewrite stock_lookup_by_format, stock_lookup_by_platform.
  now destruct (stock_viewer (PLATFORM env)).
Qed.

(** X2: binding a launcher to the name made of a format and the platform
    makes [_view] start it for that format, and leaves [_view] as it
    was for every other format. *)
Theorem view_override_one_format (self : Render) (format : string)
    (view_method : viewer) :
  let bound := with_attr self ("_view_" ++ format ++ "_" ++ PLATFORM env)
                 view_method in
  (forall filepath quiet w,
      _view env bound filepath format quiet w
      = call_viewer view_method filepath quiet w)
  /\ (forall other filepath quiet w,
         other <> format ->
         _view env bound filepath other quiet w
         = _view env self filepath other quiet w).
Proof.
  intros bound. split.
  - intros filepath quiet w. unfold _view, methodnames.
    rewrite first_view_method_two. subst bound. simpl.
    now rewrite lookup_insert_eq.
  - intros other filepath quiet w Hne. unfold _view, methodnames.
    rewrite !first_view_method_two. subst bound. simpl.
    rewrite lookup_insert_ne.
    2:{ intros Heq. apply (append_inv_head "_view_") in Heq.
        apply append_inv_tail in Heq. now apply Hne. }
    rewrite lookup_insert_ne.
    2:{ intros Heq. apply (append_inv_head "_view_") in Heq.
        apply (f_equal String.length) in Heq.
        rewrite !length_append in Heq. simpl in Heq. lia. }
    reflexivity.
Qed.

(** *** The viewer step of [render] *)

(** X3: when viewing is asked for and no launcher is bound for the object's
    format and the platform, [render] raises [RuntimeError] only after
    the file is rendered and the clean-up is done: the world is the one
    the rendering left, and the path is not returned. *)
Theorem render_fails_in_viewer (self : Render) (fname dname : option string)
    (view cleanup : bool) (format renderer formatter : option string)
    (quiet quiet_view : bool) (w w1 : world) (rendered : string) :
  render_to_file env self fname dname cleanup format renderer formatter
    quiet w = (Ok rendered, w1) ->
  quiet_view || view = true ->
  first_view_method self (methodnames env (_format self)) = None ->
  render env self fname dname view cleanup format renderer formatter
    quiet quiet_view w
  = (Raise (RuntimeError (no_viewer_message env self (_format self))), w1).
Proof.
  intros Hfile Hview Hnone. rewrite render_steps.
  rewrite (bind_Ok _ _ _ _ _ Hfile). rewrite Hview.
  unfold bind, _view. now rewrite Hnone.
Qed.

Lemma render_ok_with_viewing (self : Render) (fname dname : option string)
    (view cleanup : bool) (format renderer formatter : option string)
    (quiet quiet_view : bool) (w w' : world) (path : string) :
  quiet_view || view = true ->
  render env self fname dname view cleanup format renderer formatter
    quiet quiet_view w = (Ok path, w') ->
  exists view_method w1,
    render_to_file env self fname dname cleanup format renderer formatter
      quiet w = (Ok path, w1)
    /\ first_view_method self (methodnames env (_format self))
       = Some view_method
    /\ w' = World (disk w1)
              (ViewerStarted view_method path quiet_view :: trace w1).
Proof.
  intros Hview. rewrite render_steps.
  destruct (render_to_file env self fname dname cleanup format renderer
              formatter quiet w) as [[rendered|e] w1] eqn:Hfile.
  - rewrite (bind_Ok _ _ _ _ _ Hfile). rewrite Hview.
    unfold bind, _view, call_viewer, emit, ret, raise.
    destruct (first_view_method self (methodnames env (_format self)))
      as [view_method|]; [|discriminate].
    intros [= <- <-]. now exists view_method, w1.
  - rewrite (bind_Raise _ _ _ _ _ Hfile). discriminate.
Qed.

(** X4: when viewing is asked for and [render] returns a path, its last
    effect is the start of one launcher, the one selected for the
    object's format, on the returned path and with [quiet_view] (not
    [quiet]) as its quiet flag. *)
Theorem render_starts_viewer (self : Render) (fname dname : option string)
    (view cleanup : bool) (format renderer formatter : option string)
    (quiet quiet_view : bool) (w w' : world) (path : string) :
  quiet_view || view = true ->
  render env self fname dname view cleanup format renderer formatter
    quiet quiet_view w = (Ok path, w') ->
  exists view_method w1,
    render_to_file env self fname dname cleanup format renderer formatter
      quiet w = (Ok path, w1)
    /\ first_view_method self (methodnames env (_format self))
       = Some view_method
    /\ w' = World (disk w1)
              (ViewerStarted view_method path quiet_view :: trace w1).
Proof. apply render_ok_with_viewing. Qed.

(** X5: without [cleanup], [render] removes no file, and the saved source
    file is on disk afterwards whether the rendering and the viewing
    succeeded or not (the renderer is taken to delete nothing). *)
Theorem render_without_cleanup_keeps_source (self : Render)
    (fname dname : option string) (view : bool)
    (format renderer formatter : option string) (quiet quiet_view : bool)
    (w : world) :
  let filepath := path_join (default (directory self) dname)
                            (default (filename self) fname) in
  let call := render env self fname dname view false format renderer
                formatter quiet quiet_view w in
  removes (snd call) = removes w /\ (filepath ∈ disk (snd call)).
Proof.
  intros filepath call. subst call. rewrite render_steps.
  set (saved := World ({[filepath]} ∪ disk w) (trace w)).
  assert (Hfile : removes (snd (render_to_file env self fname dname false
                                  format renderer formatter quiet w))
                  = removes w
                  /\ filepath ∈ disk (snd (render_to_file env self fname dname
                                             false format renderer formatter
                                             quiet w))).
  { unfold render_to_file, save. fold filepath. rewrite bind_assoc.
    rewrite (bind_Ok _ _ w tt saved) by reflexivity.
    rewrite (bind_Ok _ _ saved filepath saved) by reflexivity.
    destruct (backend_render env (_engine self)
                (default (_format self) format) filepath renderer formatter
                quiet saved) as [[rendered|e] w1] eqn:Hb;
      destruct (backend_render_frame _ _ _ _ _ _ _ _ _ _ Hb) as (Hd & Hr & _).
    - rewrite (bind_Ok _ _ _ _ _ Hb). simpl. split; [exact Hr|].
      apply Hd. apply elem_of_union_l. now apply elem_of_singleton.
    - rewrite (bind_Raise _ _ _ _ _ Hb). simpl. split; [exact Hr|].
      apply Hd. apply elem_of_union_l. now apply elem_of_singleton. }
  destruct (render_to_file env self fname dname false format renderer
              formatter quiet w) as [[rendered|e] w1] eqn:Hf;
    simpl in Hfile.
  - rewrite (bind_Ok _ _ _ _ _ Hf).
    destruct (quiet_view || view).
    + destruct (_view env self rendered (_format self) quiet_view w1)
        as [[[]|e] w2] eqn:Hv;
        destruct (view_frame _ _ _ _ _ _ _ _ Hv) as (Hd & Hr & _).
      * rewrite (bind_Ok _ _ _ _ _ Hv). simpl. now rewrite Hr, Hd.
      * rewrite (bind_Raise _ _ _ _ _ Hv). simpl. now rewrite Hr, Hd.
    + exact Hfile.
  - rewrite (bind_Raise _ _ _ _ _ Hf). exact Hfile.
Qed.

(** *** Pipe *)

Lemma bind_Ok_inv {A B} (m : IO A) (k : A -> IO B) w b w' :
  bind m k w = (Ok b, w') ->
  exists a w1, m w = (Ok a, w1) /\ k a w1 = (Ok b, w').
Proof.
  unfold bind. destruct (m w) as [[a|e] w1]; [|discriminate].
  intros H. now exists a, w1.
Qed.

(** X7: when the requested encoding resolves to another codec than the
    object's own, [pipe] is [pipe] without encoding followed by decoding
    its bytes with the requested encoding: the process gets the same
    input, encoded with the object's own encoding. *)
Theorem pipe_other_encoding (self : Render)
    (format renderer formatter : option string) (quiet : bool)
    (encoding : string) (requested own : N) (w : world) :
  codecs_lookup env encoding = Some requested ->
  codecs_lookup env (_encoding self) = Some own ->
  requested <> own ->
  pipe env self format renderer formatter quiet (Some encoding) w
  = bind (pipe env self format renderer formatter quiet None)
      (fun raw =>
         match raw with
         | PipedBytes b =>
             bind (lift (bytes_decode env encoding b))
               (fun text => ret (PipedStr text))
         | PipedStr text => ret (PipedStr text)
         end) w.
Proof.
  intros Hreq Hown Hne. unfold pipe, lookup_codec. rewrite Hreq, Hown.
  rewrite (bind_Ok _ _ w requested w) by reflexivity.
  rewrite (bind_Ok _ _ w own w) by reflexivity.
  rewrite bool_decide_eq_false_2 by exact Hne.
  symmetry. rewrite bind_assoc. apply bind_cong. intros raw w1. reflexivity.
Qed.

(** X8: when the requested encoding or, if that one is known, the object's
    own encoding names no codec, [pipe] with an encoding raises
    [LookupError] for that name and the world is untouched: nothing is
    validated, encoded or started before the two lookups. *)
Theorem pipe_unknown_encoding (self : Render)
    (format renderer formatter : option string) (quiet : bool)
    (encoding : string) (w : world) :
  encodings_known env self (Some encoding) = false ->
  pipe env self format renderer formatter quiet (Some encoding) w
  = (Raise (LookupError
              match codecs_lookup env encoding with
              | None => encoding
              | Some _ => _encoding self
              end), w).
Proof.
  unfold encodings_known, pipe, lookup_codec.
  destruct (codecs_lookup env encoding) as [requested|]; [|reflexivity].
  destruct (codecs_lookup env (_encoding self)) as [own|];
    [discriminate|reflexivity].
Qed.

(** X9: what [pipe] returns on success is [bytes] when no encoding is given
    and [str] when one is. *)
Theorem pipe_result_type (self : Render)
    (format renderer formatter : option string) (quiet : bool)
    (encoding : option string) (w w' : world) (out : piped) :
  pipe env self format renderer formatter quiet encoding w = (Ok out, w') ->
  match encoding, out with
  | None, PipedBytes _ => True
  | Some _, PipedStr _ => True
  | _, _ => False
  end.
Proof.
  unfold pipe. destruct encoding as [encoding|]; intros H.
  - apply bind_Ok_inv in H as (requested & w1 & _ & H).
    apply bind_Ok_inv in H as (own & w2 & _ & H).
    destruct (bool_decide (requested = own)).
    + apply bind_Ok_inv in H as (text & w3 & _ & H).
      unfold ret in H. now injection H as <- _.
    + apply bind_Ok_inv in H as (raw & w3 & _ & H).
      apply bind_Ok_inv in H as (text & w4 & _ & H).
      unfold ret in H. now injection H as <- _.
  - apply bind_Ok_inv in H as (raw & w1 & _ & H).
    unfold ret in H. now injection H as <- _.
Qed.

(** *** View *)

(** X6: when [view] returns a path, the file was rendered in the object's
    default format and its last effect is the start of the launcher
    selected for that format, on the returned path. *)
Theorem view_starts_viewer (self : Render) (fname dname : option string)
    (cleanup quiet quiet_view : bool) (w w' : world) (path : string) :
  view env self fname dname cleanup quiet quiet_view w = (Ok path, w') ->
  exists view_method w1,
    render_to_file env self fname dname cleanup None None None quiet w
      = (Ok path, w1)
    /\ first_view_method self (methodnames env (_format self))
       = Some view_method
    /\ w' = World (disk w1)
              (ViewerStarted view_method path quiet_view :: trace w1).
Proof.
  unfold view. apply render_ok_with_viewing. apply orb_true_r.
Qed.

End MoreRenderingFacts.

(** *** At concrete inputs *)

Lemma stock_view_by_platform_witness :
  attrs demo_graph = Render_attrs
  /\ _view demo_env demo_graph "out/g.gv.svg" "svg" true empty_world
     = match stock_viewer (PLATFORM demo_env) with
       | Some view_method =>
           call_viewer view_method "out/g.gv.svg" true empty_world
       | None =>
           (Raise (RuntimeError (no_viewer_message demo_env demo_graph "svg")),
            empty_world)
       end.
Proof.
  split; [reflexivity|].
  apply (stock_view_by_platform demo_env demo_graph "out/g.gv.svg" "svg" true
           empty_world).
  reflexivity.
Defined.

Lemma view_override_one_format_witness :
  "pdf" <> "png"
  /\ _view demo_env
       (with_attr demo_graph ("_view_" ++ "png" ++ "_" ++ PLATFORM demo_env)
          (view_custom "png"))
       "out/g.gv.pdf" "pdf" false empty_world
     = _view demo_env demo_graph "out/g.gv.pdf" "pdf" false empty_world.
Proof.
  assert (Hne : "pdf" <> "png") by discriminate.
  split; [exact Hne|].
  apply (proj2 (view_override_one_format demo_env demo_graph "png"
                  (view_custom "png"))).
  exact Hne.
Defined.

Lemma render_fails_in_viewer_witness :
  let w1 := World (({["out/g.gv.pdf"]} ∪ ({["out/g.gv"]} ∪ ∅)) ∖ {["out/g.gv"]})
              [Remove "out/g.gv";
               Spawn ["dot"; "-Kdot"; "-Tpdf"; "-O"; "g.gv"] (Some "out")
                 None false] in
  render_to_file demo_sunos_env demo_graph None None true None None None
    false empty_world = (Ok "out/g.gv.pdf", w1)
  /\ false || true = true
  /\ first_view_method demo_graph
       (methodnames demo_sunos_env (_format demo_graph)) = None
  /\ render demo_sunos_env demo_graph None None true true None None None
       false false empty_world
     = (Raise (RuntimeError
                 (no_viewer_message demo_sunos_env demo_graph
                    (_format demo_graph))), w1).
Proof.
  intros w1. repeat (split; [reflexivity|]).
  apply (render_fails_in_viewer demo_sunos_env demo_graph None None true true
           None None None false false empty_world w1 "out/g.gv.pdf");
    reflexivity.
Defined.

Lemma render_starts_viewer_witness :
  let w' := World ({["out/g.gv.pdf"]} ∪ ({["out/g.gv"]} ∪ ∅))
              [ViewerStarted view_unixoid "out/g.gv.pdf" true;
               Spawn ["dot"; "-Kdot"; "-Tpdf"; "-O"; "g.gv"] (Some "out")
                 None false] in
  true || false = true
  /\ render demo_env demo_graph None None false false None None None
       false true empty_world = (Ok "out/g.gv.pdf", w')
  /\ exists view_method w1,
       render_to_file demo_env demo_graph None None false None None None
         false empty_world = (Ok "out/g.gv.pdf", w1)
       /\ first_view_method demo_graph
            (methodnames demo_env (_format demo_graph)) = Some view_method
       /\ w' = World (disk w1)
                 (ViewerStarted view_method "out/g.gv.pdf" true :: trace w1).
Proof.
  intros w'. repeat (split; [reflexivity|]).
  apply (render_starts_viewer demo_env demo_graph None None false false
           None None None false true empty_world w' "out/g.gv.pdf");
    reflexivity.
Defined.

Lemma view_starts_viewer_witness :
  let w' := World ({["out/g.gv.pdf"]} ∪ ({["out/g.gv"]} ∪ ∅))
              [ViewerStarted view_unixoid "out/g.gv.pdf" false;
               Spawn ["dot"; "-Kdot"; "-Tpdf"; "-O"; "g.gv"] (Some "out")
                 None false] in
  view demo_env demo_graph None None false false false empty_world
    = (Ok "out/g.gv.pdf", w')
  /\ exists view_method w1,
       render_to_file demo_env demo_graph None None false None None None
         false empty_world = (Ok "out/g.gv.pdf", w1)
       /\ first_view_method demo_graph
            (methodnames demo_env (_format demo_graph)) = Some view_method
       /\ w' = World (disk w1)
                 (ViewerStarted view_method "out/g.gv.pdf" false :: trace w1).
Proof.
  intros w'. split; [reflexivity|].
  apply (view_starts_viewer demo_env demo_graph None None false false false
           empty_world w' "out/g.gv.pdf").
  reflexivity.
Defined.

Lemma pipe_other_encoding_witness :
  codecs_lookup demo_env "ascii" = Some 0%N
  /\ codecs_lookup demo_env (_encoding demo_graph) = Some 1%N
  /\ 0%N <> 1%N
  /\ pipe demo_env demo_graph (Some "svg") None None false (Some "ascii")
       empty_world
     = bind (pipe demo_env demo_graph (Some "svg") None None false None)
         (fun raw =>
            match raw with
            | PipedBytes b =>
                bind (lift (bytes_decode demo_env "ascii" b))
                  (fun text => ret (PipedStr text))
            | PipedStr text => ret (PipedStr text)
            end) empty_world.
Proof.
  assert (Hne : 0%N <> 1%N) by discriminate.
  repeat (split; [first [reflexivity | exact Hne]|]).
  apply (pipe_other_encoding demo_env demo_graph (Some "svg") None None false
           "ascii" 0%N 1%N empty_world);
    first [reflexivity | exact Hne].
Defined.

Lemma pipe_unknown_encoding_witness :
  encodings_known demo_env demo_graph (Some "klingon") = false
  /\ pipe demo_env demo_graph None None None false (Some "klingon")
       empty_world
     = (Raise (LookupError
                 match codecs_lookup demo_env "klingon" with
                 | None => "klingon"
                 | Some _ => _encoding demo_graph
                 end), empty_world).
Proof.
  split; [reflexivity|].
  apply (pipe_unknown_encoding demo_env demo_graph None None None false
           "klingon" empty_world).
  reflexivity.
Defined.

Lemma pipe_result_type_witness :
  let w' := World ∅ [Spawn ["dot"; "-Kdot"; "-Tsvg"] None (Some demo_input)
                       false] in
  pipe demo_env demo_graph (Some "svg") None None false (Some "ascii")
    empty_world = (Ok (PipedStr "<?xml version="), w')
  /\ match Some "ascii", PipedStr "<?xml version=" with
     | None, PipedBytes _ => True
     | Some _, PipedStr _ => True
     | _, _ => False
     end.
Proof.
  intros w'. split; [reflexivity|].
  apply (pipe_result_type demo_env demo_graph (Some "svg") None None false
           (Some "ascii") empty_world w' (PipedStr "<?xml version=")).
  reflexivity.
Defined.
